(** * CAEG-EL parametric modeler: builders, page logic and STL generation

    Shallow embedding of [cad_library.py] (the five shape builders) and of
    the parts of [app.py] that validate slider values and drive OpenSCAD.

    Numbers.  The builders compute with Python floats, that is IEEE
    binary64.  The arithmetic is read in two ways.

    - [Binary64] is the code as it runs: the builders over the primitive
      binary64 numbers, every operation rounded to nearest, and the
      conversion of the hole count from [int] to [float] with its
      OverflowError.  Everything that is said about a computed value
      (angles, radii, heights) is said there.
    - The definitions outside [Binary64] read the same expressions over
      the exact rationals ([Q], compared with [==]); they have the error
      paths of the code but not its rounding, and no infinity or NaN.
      They carry what depends on the shape of the tree, on the guards
      and on comparisons of arguments only.

    solid2.  The builders only assemble objects of the solid2 library; the
    tree type below has one constructor per solid2 call that the sources
    make, with the arguments in the order the sources give them. *)

From Stdlib Require Import ZArith QArith Qabs Lqa List String.
From Stdlib Require Import Floats.PrimFloat Floats.SpecFloat Floats.FloatOps.
From stdpp Require Import base gmap strings list.

Set Warnings "-inexact-float".

Open Scope Q_scope.

(** ** Python results: a value or a raised exception *)

Inductive exn : Type :=
| ZeroDivisionError
| OverflowError
| FileNotFoundError (msg : string)
| OSError (msg : string)
| CalledProcessError (returncode : Z).

Inductive result (A : Type) : Type :=
| Ok (a : A)
| Raise (e : exn).
Arguments Ok {A} a.
Arguments Raise {A} e.

Definition bind {A B : Type} (m : result A) (k : A -> result B) : result B :=
  match m with
  | Ok a => k a
  | Raise e => Raise e
  end.

Notation "x <- m ;; k" := (bind m (fun x => k))
  (at level 100, m at next level, right associativity, only parsing).

(** ** CSG trees, as the solid2 calls of the sources build them

    The type of the numbers is a parameter: [Q] in the exact reading,
    [float] in [Binary64]. *)

Inductive csg (num : Type) : Type :=
| Cylinder (r h : num) (_fn : Z)        (* cylinder(r=, h=, _fn=) *)
| Cube (size : list num)                (* cube([x, y, z]) *)
| Up (z : num) (c : csg num)            (* c.up(z) *)
| Down (z : num) (c : csg num)          (* c.down(z) *)
| Right (x : num) (c : csg num)         (* c.right(x) *)
| Rotate (v : list num) (c : csg num)   (* c.rotate([x, y, z]) *)
| UnionOf (a b : csg num)               (* a + b *)
| DifferenceOf (a b : csg num).         (* a - b *)
Arguments Cylinder {num} r h _fn.
Arguments Cube {num} size.
Arguments Up {num} z c.
Arguments Down {num} z c.
Arguments Right {num} x c.
Arguments Rotate {num} v c.
Arguments UnionOf {num} a b.
Arguments DifferenceOf {num} a b.

Abbreviation solid := (csg Q).

(** [range(n)] for a Python int: empty when [n <= 0]. *)
Definition range (n : Z) : list Z := map Z.of_nat (seq 0 (Z.to_nat n)).

(** The conversion of a Python int to a float rounds to nearest, ties to
    even, and raises OverflowError when the rounded value would be 2^1024
    or more in magnitude: from 2^1024 - 2^970 on (halfway between the
    largest double and 2^1024). *)
Definition int_overflows (n : Z) : bool :=
  (2 ^ 1024 - 2 ^ 970 <=? Z.abs n)%Z.

(** [x / n] with a float [x] and an int [n]: the int is converted, and the
    true division raises ZeroDivisionError on a zero divisor. *)
Definition truediv (x : Q) (n : Z) : result Q :=
  if (n =? 0)%Z then Raise ZeroDivisionError
  else if int_overflows n then Raise OverflowError
  else Ok (x / inject_Z n).

(** ** cad_library.py *)

Definition create_bolt {num : Type}
    (head_radius head_height bolt_radius bolt_length : num) : csg num :=
  let head := Cylinder head_radius head_height 6 in
  let body := Cylinder bolt_radius bolt_length 100 in
  let assembly := UnionOf head (Up head_height body) in
  assembly.

Definition create_flange (flange_radius pipe_radius thickness : Q)
    (num_holes : Z) : result solid :=
  let base := Cylinder flange_radius thickness 100 in
  let epsilon := 0.1 in
  let central_hole :=
    Down epsilon (Cylinder pipe_radius (thickness + 2 * epsilon) 100) in
  let bolt_circle_radius := (flange_radius + pipe_radius) / 2.0 in
  let hole_radius := (flange_radius - pipe_radius) * 0.15 in
  let hole_radius := if Qle_bool hole_radius 0 then 1 else hole_radius in
  angle_step <- truediv 360.0 num_holes ;;
  let bolt_holes :=
    map (fun i : Z =>
           let angle := inject_Z i * angle_step in
           let hole :=
             Down epsilon (Cylinder hole_radius (thickness + 2 * epsilon) 100) in
           let positioned_hole :=
             Rotate [0; 0; angle] (Right bolt_circle_radius hole) in
           positioned_hole)
        (range num_holes) in
  let result := DifferenceOf base central_hole in
  Ok (fold_left DifferenceOf bolt_holes result).

Definition create_nut (inner_radius outer_radius thickness : Q) : solid :=
  let hex_body := Cylinder outer_radius thickness 6 in
  let epsilon := 0.1 in
  let hole :=
    Down epsilon (Cylinder inner_radius (thickness + 2 * epsilon) 100) in
  DifferenceOf hex_body hole.

Definition create_washer (inner_radius outer_radius thickness : Q) : solid :=
  let disk := Cylinder outer_radius thickness 100 in
  let epsilon := 0.1 in
  let hole :=
    Down epsilon (Cylinder inner_radius (thickness + 2 * epsilon) 100) in
  DifferenceOf disk hole.

Definition create_bracket {num : Type} (length width height thickness : num)
  : csg num :=
  let base := Cube [length; width; thickness] in
  let upright := Cube [thickness; width; height] in
  UnionOf base upright.

(** ** Reading a tree back

    [a - b - c] is [DifferenceOf (DifferenceOf a b) c]: the base is the
    leftmost operand, the subtracted operands follow in source order. *)

Fixpoint base_of {num : Type} (t : csg num) : csg num :=
  match t with
  | DifferenceOf a _ => base_of a
  | _ => t
  end.

Fixpoint subtracted {num : Type} (t : csg num) : list (csg num) :=
  match t with
  | DifferenceOf a b => subtracted a ++ [b]
  | _ => []
  end.

(** The flange subtracts the central bore first and the bolt holes after. *)
Definition bolt_holes_of {num : Type} (t : csg num) : list (csg num) :=
  tail (subtracted t).

(** The primitive under the placement of a subtracted operand
    ([.right(..)] and [.rotate(..)] place it in the plane). *)
Fixpoint cutter {num : Type} (s : csg num) : csg num :=
  match s with
  | Right _ c => cutter c
  | Rotate _ c => cutter c
  | _ => s
  end.

(** Placement of a bolt hole: [(x, angle)] when the hole is moved right by
    [x] first (inner call) and turned about the z axis by [angle] second
    (outer call). *)
Definition placement (s : solid) : option (Q * Q) :=
  match s with
  | Rotate [rx; ry; angle] (Right x _) =>
      if Qeq_bool rx 0 && Qeq_bool ry 0 then Some (x, angle) else None
  | _ => None
  end.

(** Extent [(bottom, top)] along z: a cylinder stands on z = 0, [up] and
    [down] move along z, [right] and a rotation about z leave z alone. *)
Fixpoint z_extent (s : solid) : option (Q * Q) :=
  match s with
  | Cylinder _ h _ => Some (0, h)
  | Up z c =>
      match z_extent c with
      | Some (lo, hi) => Some (lo + z, hi + z)
      | None => None
      end
  | Down z c =>
      match z_extent c with
      | Some (lo, hi) => Some (lo - z, hi - z)
      | None => None
      end
  | Right _ c => z_extent c
  | Rotate [rx; ry; _] c =>
      if Qeq_bool rx 0 && Qeq_bool ry 0 then z_extent c else None
  | _ => None
  end.

(** The radius of the primitive that a subtracted operand cuts with. *)
Definition hole_radius_of {num : Type} (s : csg num) : option num :=
  match cutter s with
  | Down _ (Cylinder r _ _) => Some r
  | _ => None
  end.

(** A bolt hole on the circle of radius [x] with a cutter of radius [r]. *)
Definition bolt_hole_at (x r : Q) (s : solid) : Prop :=
  exists x' angle r',
    placement s = Some (x', angle) /\ hole_radius_of s = Some r' /\
    x' == x /\ r' == r.

(** The radius of a bolt hole, as lines 56-58 of cad_library.py compute it. *)
Definition flange_hole_radius (flange_radius pipe_radius : Q) : Q :=
  let hole_radius := (flange_radius - pipe_radius) * 0.15 in
  if Qle_bool hole_radius 0 then 1 else hole_radius.

(** The hole that one turn of the loop of lines 63-68 appends. *)
Definition flange_hole (flange_radius pipe_radius thickness angle_step : Q)
    (i : Z) : solid :=
  Rotate [0; 0; inject_Z i * angle_step]
    (Right ((flange_radius + pipe_radius) / 2.0)
       (Down 0.1
          (Cylinder (flange_hole_radius flange_radius pipe_radius)
             (thickness + 2 * 0.1) 100))).

(** A tree all of whose primitives have strictly positive dimensions. *)
Fixpoint positive_dims (s : solid) : Prop :=
  match s with
  | Cylinder r h _ => 0 < r /\ 0 < h
  | Cube size => Forall (fun x => 0 < x) size
  | Up _ c => positive_dims c
  | Down _ c => positive_dims c
  | Right _ c => positive_dims c
  | Rotate _ c => positive_dims c
  | UnionOf a b => positive_dims a /\ positive_dims b
  | DifferenceOf a b => positive_dims a /\ positive_dims b
  end.

(** ** cad_library.py as it runs: binary64 *)

Module Binary64.

Local Open Scope float_scope.

(** [float(n)] for a Python int that does not overflow: the nearest
    double, ties to even. *)
Definition float_of_int (n : Z) : float :=
  SF2Prim (binary_normalize prec emax n 0 false).

Definition truediv (x : float) (n : Z) : result float :=
  if (n =? 0)%Z then Raise ZeroDivisionError
  else if int_overflows n then Raise OverflowError
  else Ok (x / float_of_int n).

Definition create_flange (flange_radius pipe_radius thickness : float)
    (num_holes : Z) : result (csg float) :=
  let base := Cylinder flange_radius thickness 100 in
  let epsilon := 0.1 in
  let central_hole :=
    Down epsilon (Cylinder pipe_radius (thickness + 2 * epsilon) 100) in
  let bolt_circle_radius := (flange_radius + pipe_radius) / 2.0 in
  let hole_radius := (flange_radius - pipe_radius) * 0.15 in
  let hole_radius := if hole_radius <=? 0 then 1 else hole_radius in
  angle_step <- truediv 360.0 num_holes ;;
  let bolt_holes :=
    map (fun i : Z =>
           let angle := float_of_int i * angle_step in
           let hole :=
             Down epsilon (Cylinder hole_radius (thickness + 2 * epsilon) 100) in
           let positioned_hole :=
             Rotate [0; 0; angle] (Right bolt_circle_radius hole) in
           positioned_hole)
        (range num_holes) in
  let result := DifferenceOf base central_hole in
  Ok (fold_left DifferenceOf bolt_holes result).

Definition create_nut (inner_radius outer_radius thickness : float)
  : csg float :=
  let hex_body := Cylinder outer_radius thickness 6 in
  let epsilon := 0.1 in
  let hole :=
    Down epsilon (Cylinder inner_radius (thickness + 2 * epsilon) 100) in
  DifferenceOf hex_body hole.

Definition create_washer (inner_radius outer_radius thickness : float)
  : csg float :=
  let disk := Cylinder outer_radius thickness 100 in
  let epsilon := 0.1 in
  let hole :=
    Down epsilon (Cylinder inner_radius (thickness + 2 * epsilon) 100) in
  DifferenceOf disk hole.

(** The real number that a finite double stands for. *)
Definition exact (x : float) : option Q :=
  match Prim2SF x with
  | S754_zero _ => Some 0%Q
  | S754_finite s m e =>
      Some (inject_Z (if s then Z.neg m else Z.pos m) * Qpower 2 e)%Q
  | _ => None
  end.

(** The radius of a bolt hole, as lines 56-58 compute it. *)
Definition flange_hole_radius (flange_radius pipe_radius : float) : float :=
  let hole_radius := (flange_radius - pipe_radius) * 0.15 in
  if hole_radius <=? 0 then 1 else hole_radius.

(** The angle of hole [i] among [n], as lines 61 and 64 compute it. *)
Definition angle (n i : Z) : float :=
  float_of_int i * (360.0 / float_of_int n).

(** The hole that one turn of the loop of lines 63-68 appends. *)
Definition flange_hole (flange_radius pipe_radius thickness : float)
    (n i : Z) : csg float :=
  Rotate [0; 0; angle n i]
    (Right ((flange_radius + pipe_radius) / 2.0)
       (Down 0.1
          (Cylinder (flange_hole_radius flange_radius pipe_radius)
             (thickness + 2 * 0.1) 100))).

(** Placement of a bolt hole: moved right by [x] first, turned about z by
    [angle] second. *)
Definition placement (s : csg float) : option (float * float) :=
  match s with
  | Rotate [rx; ry; angle] (Right x _) =>
      if (rx =? 0) && (ry =? 0) then Some (x, angle) else None
  | _ => None
  end.

(** The extent along z of the solid that a tree describes, in exact
    numbers: a cylinder stands on z = 0, [down] moves along z, [right]
    and a rotation about z leave z alone. *)
Fixpoint z_extent (s : csg float) : option (Q * Q) :=
  match s with
  | Cylinder _ h _ =>
      match exact h with
      | Some h' => Some (0, h')%Q
      | None => None
      end
  | Down z c =>
      match exact z, z_extent c with
      | Some z', Some (lo, hi) => Some (lo - z', hi - z')%Q
      | _, _ => None
      end
  | Right _ c => z_extent c
  | Rotate [rx; ry; _] c =>
      if (rx =? 0) && (ry =? 0) then z_extent c else None
  | _ => None
  end.









End Binary64.

(** ** app.py: the sidebar branches (lines 24-72) *)

Inductive component_type : Type :=
| Bolt (head_radius head_height bolt_radius bolt_length : Q)
| Flange (flange_radius pipe_radius thickness : Q) (num_holes : Z)
| Nut (inner_radius outer_radius thickness : Q)
| Washer (inner_radius outer_radius thickness : Q)
| LBracket (length width height thickness : Q).

(** What a run of the script leaves: [generated_obj], and the texts given
    to [st.error]. *)
Record page : Type := {
  generated_obj : option solid;
  st_error : list string
}.

Definition invalid_flange_msg : string :=
  "Invalid Parameters: Pipe Radius must be smaller than Flange Radius.".

Definition invalid_inner_msg : string :=
  "Invalid Parameters: Inner Radius must be smaller than Outer Radius.".

Definition select_component (c : component_type) : result page :=
  match c with
  | Bolt head_radius head_height bolt_radius bolt_length =>
      Ok {| generated_obj :=
              Some (create_bolt head_radius head_height bolt_radius bolt_length);
            st_error := [] |}
  | Flange flange_radius pipe_radius thickness num_holes =>
      if Qle_bool flange_radius pipe_radius (* pipe_radius >= flange_radius *)
      then Ok {| generated_obj := None;
                 st_error := [invalid_flange_msg] |}
      else
        obj <- create_flange flange_radius pipe_radius thickness num_holes ;;
        Ok {| generated_obj := Some obj; st_error := [] |}
  | Nut inner_radius outer_radius thickness =>
      if Qle_bool outer_radius inner_radius (* inner_radius >= outer_radius *)
      then Ok {| generated_obj := None;
                 st_error := [invalid_inner_msg] |}
      else Ok {| generated_obj :=
                   Some (create_nut inner_radius outer_radius thickness);
                 st_error := [] |}
  | Washer inner_radius outer_radius thickness =>
      if Qle_bool outer_radius inner_radius
      then Ok {| generated_obj := None;
                 st_error := [invalid_inner_msg] |}
      else Ok {| generated_obj :=
                   Some (create_washer inner_radius outer_radius thickness);
                 st_error := [] |}
  | LBracket length width height thickness =>
      Ok {| generated_obj := Some (create_bracket length width height thickness);
            st_error := [] |}
  end.

(** [st.sidebar.slider(.., min_value, max_value, ..)] yields a value between
    its two bounds (lines 28-70). *)

Definition within (min_value max_value x : Q) : Prop :=
  min_value <= x /\ x <= max_value.

Definition sliders (c : component_type) : Prop :=
  match c with
  | Bolt head_radius head_height bolt_radius bolt_length =>
      within 1.0 50.0 head_radius /\ within 1.0 50.0 head_height /\
      within 1.0 30.0 bolt_radius /\ within 5.0 200.0 bolt_length
  | Flange flange_radius pipe_radius thickness num_holes =>
      within 10.0 200.0 flange_radius /\ within 5.0 100.0 pipe_radius /\
      within 1.0 50.0 thickness /\ (3 <= num_holes <= 20)%Z
  | Nut inner_radius outer_radius thickness =>
      within 1.0 50.0 inner_radius /\ within 2.0 60.0 outer_radius /\
      within 1.0 50.0 thickness
  | Washer inner_radius outer_radius thickness =>
      within 1.0 50.0 inner_radius /\ within 2.0 60.0 outer_radius /\
      within 0.5 20.0 thickness
  | LBracket length width height thickness =>
      within 5.0 200.0 length /\ within 5.0 100.0 width /\
      within 5.0 200.0 height /\ within 1.0 20.0 thickness
  end.

(** ** app.py: generate_stl_content and the preview tab

    The working directory is a finite map from the three fixed file names
    of the script to contents.  The operating system is outside the
    program: [path_exists] stands for [os.path.exists] (whatever the
    location is: a file, a directory, another name of a file), and
    [subprocess_run] stands for [subprocess.run(args, ...)] up to the
    moment the process is over; it either could not start it (an
    [OSError]) or reports its exit status and the files it left.  The
    file operations of the script itself are taken to succeed.

    [generate_stl_content] is the body of the function, that is what runs
    when [st.cache_data] has no entry for the two arguments;
    [cached_generate_stl_content] is the function as line 75 decorates
    it. *)

Inductive completed : Type :=
| Exited (returncode : Z) (files : gmap string string)
| NotStarted (e : exn).

Definition not_found_msg : string :=
  "OpenSCAD executable not found at specified path.".

(** What the preview tab shows (lines 109-128). *)
Inductive shown : Type :=
| stl_from_file (path : string)
| st_warning (body : string).

Section Invoker.

Variable path_exists : string -> gmap string string -> bool.
Variable subprocess_run :
  list string -> gmap string string -> completed.

Definition generate_stl_content (scad_code scad_path : string)
    (files : gmap string string)
  : result (option string) * gmap string string :=
  let files := <["temp.scad"%string := scad_code]> files in
  if negb (path_exists scad_path files)
  then (Raise (FileNotFoundError not_found_msg), files)
  else
    match subprocess_run
            [scad_path; "-o"; "temp.stl"; "temp.scad"]%string files with
    | NotStarted e => (Raise e, files)
    | Exited returncode files =>
        if negb (returncode =? 0)%Z          (* check=True *)
        then (Raise (CalledProcessError returncode), files)
        else
          match files !! "temp.stl"%string with
          | Some data => (Ok (Some data), files)
          | None => (Ok None, files)
          end
    end.

(** [@st.cache_data]: a result that was returned for the same two
    arguments is returned again without running the body; a raised
    exception is not stored. *)
Definition cached_generate_stl_content (scad_code scad_path : string)
    (cache : gmap (string * string) (option string))
    (files : gmap string string)
  : result (option string) * gmap (string * string) (option string)
    * gmap string string :=
  match cache !! (scad_code, scad_path) with
  | Some stl_data => (Ok stl_data, cache, files)
  | None =>
      match generate_stl_content scad_code scad_path files with
      | (Ok stl_data, files) =>
          (Ok stl_data, <[(scad_code, scad_path) := stl_data]> cache, files)
      | (Raise e, files) => (Raise e, cache, files)
      end
  end.

Definition preview (scad_code openscad_path : string)
    (files : gmap string string) : shown * gmap string string :=
  match generate_stl_content scad_code openscad_path files with
  | (Ok (Some stl_data), files) =>
      if String.eqb stl_data ""             (* if stl_data: *)
      then (st_warning "STL Generation produced no output.", files)
      else (stl_from_file "preview_cache.stl",
            <["preview_cache.stl"%string := stl_data]> files)
  | (Ok None, files) =>
      (st_warning "STL Generation produced no output.", files)
  | (Raise (FileNotFoundError e), files) | (Raise (OSError e), files) =>
      (st_warning ("Preview unavailable: " ++ e ++
                   ". Please check the OpenSCAD path in the sidebar."), files)
  | (Raise (CalledProcessError _), files) =>
      (st_warning "Preview generation failed. OpenSCAD encountered an error.",
       files)
  | (Raise ZeroDivisionError, files) =>
      (st_warning "An error occurred during preview generation: division by zero",
       files)
  | (Raise OverflowError, files) =>
      (st_warning "An error occurred during preview generation: int too large to convert to float",
       files)
  end.

End Invoker.

(** What a run of the script puts on the page: the [st.error] texts, the
    preview tab, the text area of the source tab and the data behind the
    download button. *)
Record screen : Type := {
  errors : list string;
  tab1 : option shown;
  tab2 : option string;
  download_button : option string
}.

Section Script.

(** [scad_render] is solid2's; the script only passes its text on. *)
Variable scad_render : solid -> string.
Variable path_exists : string -> gmap string string -> bool.
Variable subprocess_run : list string -> gmap string string -> completed.

Definition app (c : component_type) (openscad_path : string)
    (files : gmap string string) : result (screen * gmap string string) :=
  page <- select_component c ;;
  match generated_obj page with
  | Some obj =>                                   (* if generated_obj: *)
      let scad_code := scad_render obj in
      let '(stl, files) :=
        preview path_exists subprocess_run scad_code openscad_path files in
      Ok ({| errors := st_error page;
             tab1 := Some stl;
             tab2 := Some scad_code;
             download_button := Some scad_code |}, files)
  | None =>
      Ok ({| errors := st_error page;
             tab1 := None; tab2 := None; download_button := None |}, files)
  end.

End Script.

(** Sample collaborators for concrete runs: a directory in which a
    location exists exactly when it is one of the names it lists, a
    compiler that exits with status 0 and writes nothing, one that fails,
    one that writes a mesh, and a renderer. *)
Definition listed (path : string) (files : gmap string string) : bool :=
  bool_decide (is_Some (files !! path)).

Definition silent_process (args : list string) (files : gmap string string)
  : completed :=
  Exited 0 files.

Definition failing_process (args : list string) (files : gmap string string)
  : completed :=
  Exited 1 files.

Definition working_process (args : list string) (files : gmap string string)
  : completed :=
  Exited 0 (<["temp.stl"%string := "solid mesh"%string]> files).

Definition sample_render (obj : solid) : string := "cube(1);".

(** * Properties *)

(** ** Lists built by the loops of [create_flange] *)

Lemma subtracted_fold {num : Type} (hs : list (csg num)) (t : csg num) :
  subtracted (fold_left DifferenceOf hs t) = subtracted t ++ hs.
Proof.
  revert t; induction hs as [|h hs IH]; intros t; simpl.
  - now rewrite app_nil_r.
  - rewrite IH; simpl. now rewrite <- app_assoc.
Qed.

Lemma base_of_fold {num : Type} (hs : list (csg num)) (t : csg num) :
  base_of (fold_left DifferenceOf hs t) = base_of t.
Proof.
  revert t; induction hs as [|h hs IH]; intros t; simpl; [easy|].
  now rewrite IH.
Qed.


Lemma length_map_range {A : Type} (f : Z -> A) (n : Z) :
  length (map f (range n)) = Z.to_nat n.
Proof. unfold range. now rewrite !length_map, length_seq. Qed.



Lemma range_nonpositive (n : Z) : (n <= 0)%Z -> range n = [].
Proof.
  intros H. unfold range. now replace (Z.to_nat n) with 0%nat by lia.
Qed.

(** ** The hole count as a float *)

Lemma int_overflows_small (n : Z) :
  (Z.abs n <= 2 ^ 1000)%Z -> int_overflows n = false.
Proof.
  intros H. unfold int_overflows. apply Z.leb_gt.
  eapply Z.le_lt_trans; [exact H|]. reflexivity.
Qed.

Lemma int_overflows_nonzero (n : Z) : int_overflows n = true -> n <> 0%Z.
Proof. intros H ->. discriminate H. Qed.

(** ** The flange, unfolded (exact reading) *)

Lemma create_flange_nonzero fr pr th n :
  n <> 0%Z -> int_overflows n = false ->
  create_flange fr pr th n =
  Ok (fold_left DifferenceOf
        (map (flange_hole fr pr th (360.0 / inject_Z n)) (range n))
        (DifferenceOf (Cylinder fr th 100)
           (Down 0.1 (Cylinder pr (th + 2 * 0.1) 100)))).
Proof.
  intros Hn Ho. unfold create_flange, truediv.
  destruct (Z.eqb_spec n 0) as [->|_]; [easy|]. rewrite Ho. reflexivity.
Qed.

Lemma create_flange_Ok_inv (fr pr th : Q) (n : Z) (t : solid) :
  create_flange fr pr th n = Ok t -> n <> 0%Z /\ int_overflows n = false.
Proof.
  unfold create_flange, truediv.
  destruct (Z.eqb_spec n 0) as [->|Hn]; [discriminate|].
  destruct (int_overflows n); [discriminate|]. easy.
Qed.

Lemma subtracted_flange fr pr th n t :
  create_flange fr pr th n = Ok t ->
  base_of t = Cylinder fr th 100 /\
  subtracted t =
    Down 0.1 (Cylinder pr (th + 2 * 0.1) 100)
    :: map (flange_hole fr pr th (360.0 / inject_Z n)) (range n).
Proof.
  intros Ht. destruct (create_flange_Ok_inv _ _ _ _ _ Ht) as [Hn Ho].
  rewrite create_flange_nonzero in Ht by easy.
  injection Ht as <-. now rewrite base_of_fold, subtracted_fold.
Qed.


Lemma flange_hole_radius_cases (fr pr : Q) :
  ((fr - pr) * 0.15 <= 0 -> flange_hole_radius fr pr = 1) /\
  (0 < (fr - pr) * 0.15 -> flange_hole_radius fr pr = (fr - pr) * 0.15).
Proof.
  unfold flange_hole_radius.
  destruct (Qle_bool ((fr - pr) * 0.15) 0) eqn:E; split; intros H; try easy.
  - apply Qle_bool_iff in E. lra.
  - apply Qle_bool_iff in H. congruence.
Qed.

Lemma flange_hole_radius_positive (fr pr : Q) : 0 < flange_hole_radius fr pr.
Proof.
  destruct (flange_hole_radius_cases fr pr) as [Hle Hgt].
  destruct (Qlt_le_dec 0 ((fr - pr) * 0.15)) as [H|H].
  - now rewrite Hgt.
  - now rewrite Hle.
Qed.

Lemma Qle_bool_false (x y : Q) : y < x -> Qle_bool x y = false.
Proof.
  intros H. destruct (Qle_bool x y) eqn:E; [|reflexivity].
  apply Qle_bool_iff in E. lra.
Qed.

(** ** Claims on the shape of the trees and on the guards of the page *)

(** C8.  For every headRadius, headHeight, boltRadius and boltLength,
    [create_bolt] returns the union of a 6-segment cylinder of height
    headHeight standing on z = 0 (the head) and a 100-segment cylinder of
    height boltLength (the shaft) moved up by exactly headHeight: the shaft
    starts where the head ends, with no gap and no overlap.  In particular
    in [create_bolt 10 5 5 30] the shaft is moved up by 5. *)
Theorem create_bolt_stacks_shaft_on_head :
  (forall head_radius head_height bolt_radius bolt_length : Q,
     exists head shaft,
       create_bolt head_radius head_height bolt_radius bolt_length
       = UnionOf head (Up head_height shaft) /\
       head = Cylinder head_radius head_height 6 /\
       shaft = Cylinder bolt_radius bolt_length 100 /\
       z_extent head = Some (0, head_height) /\
       exists lo hi, z_extent (Up head_height shaft) = Some (lo, hi) /\
                     lo == head_height /\ hi == head_height + bolt_length) /\
  create_bolt 10 5 5 30
  = UnionOf (Cylinder 10 5 6) (Up 5 (Cylinder 5 30 100)).
Proof.
  split; [|reflexivity].
  intros hr hh br bl. eexists _, _. repeat split.
  simpl. eexists _, _. split; [reflexivity|]. split; lra.
Qed.

(** C1, as the code has it.  [create_flange] does no relational
    validation.  For every flangeRadius, pipeRadius, thickness and
    numHoles with pipeRadius >= flangeRadius it is the Flange branch of
    the page that reports "Invalid Parameters: Pipe Radius must be smaller
    than Flange Radius." and leaves no generated tree, without calling
    [create_flange]; with pipeRadius < flangeRadius the branch hands the
    parameters to [create_flange]. *)
Theorem flange_branch_rejects_wide_pipe (fr pr th : Q) (n : Z) :
  fr <= pr ->
  select_component (Flange fr pr th n)
  = Ok {| generated_obj := None; st_error := [invalid_flange_msg] |} /\
  (forall fr' pr' : Q, pr' < fr' ->
     select_component (Flange fr' pr' th n)
     = (obj <- create_flange fr' pr' th n ;;
        Ok {| generated_obj := Some obj; st_error := [] |})).
Proof.
  intros H. split.
  - simpl. apply Qle_bool_iff in H. now rewrite H.
  - intros fr' pr' H'. simpl. now rewrite Qle_bool_false.
Qed.

Lemma flange_branch_rejects_wide_pipe_witness :
  select_component (Flange 10 20 5 6)
  = Ok {| generated_obj := None; st_error := [invalid_flange_msg] |}.
Proof.
  apply (flange_branch_rejects_wide_pipe 10 20 5 6%Z). discriminate.
Defined.

(** C1 as stated fails: with pipeRadius 20 >= flangeRadius 10 the builder
    raises nothing and returns a complete tree, six bolt holes with the
    fallback radius 1 on the circle of radius 15. *)
Lemma create_flange_builds_with_wide_pipe :
  10 <= 20 /\
  exists t, create_flange 10 20 5 6 = Ok t /\
            base_of t = Cylinder 10 5 100 /\
            length (bolt_holes_of t) = 6%nat /\
            Forall (bolt_hole_at 15 1) (bolt_holes_of t).
Proof.
  split; [discriminate|]. eexists. split; [reflexivity|].
  split; [reflexivity|]. split; [reflexivity|].
  repeat constructor; eexists _, _, _; repeat split; reflexivity.
Qed.

(** C2, as the code has it.  [create_nut] and [create_washer] do no
    relational validation.  For every innerRadius, outerRadius and
    thickness with innerRadius >= outerRadius it is the Nut branch and the
    Washer branch of the page that report "Invalid Parameters: Inner
    Radius must be smaller than Outer Radius." and leave no generated
    tree, without calling the builder; with innerRadius < outerRadius the
    branches return the builder's tree. *)
Theorem nut_and_washer_branches_reject_wide_bore (ir or th : Q) :
  or <= ir ->
  select_component (Nut ir or th)
  = Ok {| generated_obj := None; st_error := [invalid_inner_msg] |} /\
  select_component (Washer ir or th)
  = Ok {| generated_obj := None; st_error := [invalid_inner_msg] |} /\
  (forall ir' or' : Q, ir' < or' ->
     select_component (Nut ir' or' th)
     = Ok {| generated_obj := Some (create_nut ir' or' th); st_error := [] |} /\
     select_component (Washer ir' or' th)
     = Ok {| generated_obj := Some (create_washer ir' or' th);
             st_error := [] |}).
Proof.
  intros H. apply Qle_bool_iff in H. simpl. rewrite H.
  split; [easy|]. split; [easy|].
  intros ir' or' H'. now rewrite Qle_bool_false.
Qed.

Lemma nut_and_washer_branches_reject_wide_bore_witness :
  select_component (Nut 10 5 5)
  = Ok {| generated_obj := None; st_error := [invalid_inner_msg] |} /\
  select_component (Washer 10 5 5)
  = Ok {| generated_obj := None; st_error := [invalid_inner_msg] |}.
Proof.
  destruct (nut_and_washer_branches_reject_wide_bore 10 5 5) as (A & B & _).
  - discriminate.
  - split; [exact A | exact B].
Defined.

(** C2 as stated fails: with innerRadius 10 >= outerRadius 5 both
    builders return a tree. *)
Lemma create_nut_and_washer_build_with_wide_bore :
  5 <= 10 /\
  create_nut 10 5 5
  = DifferenceOf (Cylinder 5 5 6) (Down 0.1 (Cylinder 10 (5 + 2 * 0.1) 100)) /\
  create_washer 10 5 5
  = DifferenceOf (Cylinder 5 5 100)
      (Down 0.1 (Cylinder 10 (5 + 2 * 0.1) 100)).
Proof. split; [discriminate|]. split; reflexivity. Qed.

(** ** Further properties of the builders, on the shape of the trees *)



(** X5.  The tree tells the parameters: two calls of a builder that return the
    same tree were given the same arguments (for the flange, with hole
    counts of at least 1; all negative counts give one and the same
    tree). *)
Theorem builders_are_injective :
  (forall a b c d a' b' c' d' : Q,
     create_bolt a b c d = create_bolt a' b' c' d' ->
     a = a' /\ b = b' /\ c = c' /\ d = d') /\
  (forall (fr pr th fr' pr' th' : Q) (n n' : Z) (t : solid),
     (1 <= n)%Z -> (1 <= n')%Z ->
     create_flange fr pr th n = Ok t -> create_flange fr' pr' th' n' = Ok t ->
     fr = fr' /\ pr = pr' /\ th = th' /\ n = n') /\
  (forall a b c a' b' c' : Q,
     create_nut a b c = create_nut a' b' c' -> a = a' /\ b = b' /\ c = c') /\
  (forall a b c a' b' c' : Q,
     create_washer a b c = create_washer a' b' c' ->
     a = a' /\ b = b' /\ c = c') /\
  (forall a b c d a' b' c' d' : Q,
     create_bracket a b c d = create_bracket a' b' c' d' ->
     a = a' /\ b = b' /\ c = c' /\ d = d').
Proof.
  assert (bore : forall (r r' h h' : Q),
            Down 0.1 (Cylinder r h 100) = Down 0.1 (Cylinder r' h' 100) ->
            r = r') by (intros; congruence).
  assert (disk : forall (r r' h h' : Q) (k : Z),
            Cylinder r h k = Cylinder r' h' k -> r = r' /\ h = h')
    by (intros; split; congruence).
  split; [|split; [|split; [|split]]].
  - intros a b c d a' b' c' d' H. unfold create_bolt in H.
    repeat split; congruence.
  - intros fr pr th fr' pr' th' n n' t Hn Hn' Ht Ht'.
    destruct (subtracted_flange fr pr th n t) as [Hb Hs]; [easy|].
    destruct (subtracted_flange fr' pr' th' n' t) as [Hb' Hs']; [easy|].
    rewrite Hb in Hb'. apply disk in Hb' as [-> ->].
    rewrite Hs in Hs'.
    pose proof (f_equal (@length solid) Hs') as Hlen.
    simpl in Hlen. rewrite !length_map_range in Hlen.
    apply (f_equal (hd (Cylinder 0 0 0))) in Hs'. simpl in Hs'.
    apply bore in Hs'. repeat split; [easy|lia].
  - intros a b c a' b' c' H. unfold create_nut in H.
    assert (Hd : Cylinder b c 6 = Cylinder b' c' 6) by congruence.
    assert (Hh : Down 0.1 (Cylinder a (c + 2 * 0.1) 100)
                 = Down 0.1 (Cylinder a' (c' + 2 * 0.1) 100)) by congruence.
    apply disk in Hd as [-> ->]. apply bore in Hh. easy.
  - intros a b c a' b' c' H. unfold create_washer in H.
    assert (Hd : Cylinder b c 100 = Cylinder b' c' 100) by congruence.
    assert (Hh : Down 0.1 (Cylinder a (c + 2 * 0.1) 100)
                 = Down 0.1 (Cylinder a' (c' + 2 * 0.1) 100)) by congruence.
    apply disk in Hd as [-> ->]. apply bore in Hh. easy.
  - intros a b c d a' b' c' d' H. unfold create_bracket in H.
    repeat split; congruence.
Qed.

Lemma builders_are_injective_witness :
  (50 : Q) = 50 /\ (20 : Q) = 20 /\ (5 : Q) = 5 /\ 6%Z = 6%Z.
Proof.
  eapply (proj1 (proj2 builders_are_injective) 50 20 5 50 20 5 6%Z 6%Z);
    [lia | lia | reflexivity | reflexivity].
Defined.

(** ** Further properties of the page *)

(** X6.  The component branches end in an exception in two ways only,
    both in the Flange branch with pipeRadius < flangeRadius: a hole count
    of 0 (ZeroDivisionError) and a hole count too large for a float, from
    2^1024 - 2^970 on in magnitude (OverflowError).  With
    pipeRadius >= flangeRadius neither is reached: the guard answers
    first. *)
Theorem select_component_raises_iff (c : component_type) (e : exn) :
  select_component c = Raise e <->
  exists (fr pr th : Q) (n : Z),
    c = Flange fr pr th n /\ pr < fr /\
    ((n = 0%Z /\ e = ZeroDivisionError) \/
     (int_overflows n = true /\ e = OverflowError)).
Proof.
  split.
  - destruct c as [a b c' d|fr pr th n|a b c'|a b c'|a b c' d]; simpl;
      try discriminate.
    + destruct (Qle_bool fr pr) eqn:E; [discriminate|].
      assert (Hlt : pr < fr).
      { apply Qnot_le_lt. intros H. apply Qle_bool_iff in H. congruence. }
      unfold create_flange, truediv.
      destruct (Z.eqb_spec n 0) as [->|Hn]; simpl.
      * intros H. injection H as <-. exists fr, pr, th, 0%Z. eauto.
      * destruct (int_overflows n) eqn:Ho; simpl; [|discriminate].
        intros H. injection H as <-. exists fr, pr, th, n. eauto.
    + destruct (Qle_bool b a); discriminate.
    + destruct (Qle_bool b a); discriminate.
  - intros (fr & pr & th & n & -> & Hlt & [[-> ->]|[Ho ->]]); simpl;
      rewrite Qle_bool_false by easy.
    + reflexivity.
    + unfold create_flange, truediv.
      destruct (Z.eqb_spec n 0) as [->|Hn]; [discriminate Ho|].
      now rewrite Ho.
Qed.

(** X7.  A page that is returned holds either a tree and no error text, or no
    tree and exactly one error text; the second happens exactly when the
    relation between the two radii of a flange, nut or washer is violated.
    Bolt and L-Bracket parameters are never rejected. *)
Theorem page_has_tree_or_message (c : component_type) (p : page) :
  select_component c = Ok p ->
  match generated_obj p with
  | Some _ =>
      st_error p = [] /\
      match c with
      | Flange fr pr _ _ => pr < fr
      | Nut ir or _ | Washer ir or _ => ir < or
      | _ => True
      end
  | None =>
      (exists msg, st_error p = [msg]) /\
      match c with
      | Flange fr pr _ _ => fr <= pr
      | Nut ir or _ | Washer ir or _ => or <= ir
      | _ => False
      end
  end.
Proof.
  assert (cases : forall x y : Q,
            (Qle_bool x y = true /\ x <= y) \/ (Qle_bool x y = false /\ y < x)).
  { intros x y. destruct (Qle_bool x y) eqn:E.
    - left. split; [easy|]. now apply Qle_bool_iff.
    - right. split; [easy|]. apply Qnot_le_lt. intros H.
      apply Qle_bool_iff in H. congruence. }
  destruct c as [a b c' d|fr pr th n|a b c'|a b c'|a b c' d]; simpl.
  - intros H. injection H as <-. easy.
  - destruct (cases fr pr) as [[-> H]|[-> H]].
    + intros E. injection E as <-. simpl. eauto.
    + destruct (create_flange fr pr th n); simpl; [|discriminate].
      intros E. injection E as <-. easy.
  - destruct (cases b a) as [[-> H]|[-> H]];
      intros E; injection E as <-; simpl; eauto.
  - destruct (cases b a) as [[-> H]|[-> H]];
      intros E; injection E as <-; simpl; eauto.
  - intros H. injection H as <-. easy.
Qed.

Lemma page_has_tree_or_message_witness :
  (exists msg, [invalid_inner_msg] = [msg]) /\ 5 <= 10.
Proof.
  exact (page_has_tree_or_message (Nut 10 5 5)
           {| generated_obj := None; st_error := [invalid_inner_msg] |}
           eq_refl).
Defined.

Lemma positive_dims_fold (hs : list solid) (t : solid) :
  positive_dims t -> Forall positive_dims hs ->
  positive_dims (fold_left DifferenceOf hs t).
Proof.
  revert t. induction hs as [|h hs IH]; intros t Ht Hhs; simpl; [easy|].
  apply Forall_cons in Hhs as [Hh Hhs]. apply IH; [|easy]. now split.
Qed.

Lemma create_flange_positive_dims (fr pr th : Q) (n : Z) :
  0 < fr -> 0 < pr -> 0 < th -> n <> 0%Z -> int_overflows n = false ->
  exists t, create_flange fr pr th n = Ok t /\ positive_dims t.
Proof.
  intros Hfr Hpr Hth Hn Ho. eexists.
  split; [now apply create_flange_nonzero|].
  apply positive_dims_fold.
  - simpl. repeat split; lra.
  - apply Forall_forall. intros s Hs.
    apply list_elem_of_In, in_map_iff in Hs as (i & <- & _). simpl.
    split; [apply flange_hole_radius_positive | lra].
Qed.

(** X8.  Slider values never make the page end in an exception (the sliders
    keep the hole count between 3 and 20), and every tree generated from
    them has strictly positive dimensions in all its primitives. *)
Theorem sliders_give_a_page (c : component_type) :
  sliders c ->
  exists p, select_component c = Ok p /\
            forall obj, generated_obj p = Some obj -> positive_dims obj.
Proof.
  unfold sliders, within.
  destruct c as [a b c' d|fr pr th n|a b c'|a b c'|a b c' d]; simpl.
  - intros H. eexists. split; [reflexivity|]. simpl.
    intros obj E. injection E as <-. simpl. repeat split; lra.
  - intros (Hfr & Hpr & Hth & Hn).
    destruct (Qle_bool fr pr); [eexists; split; [reflexivity|easy]|].
    destruct (create_flange_positive_dims fr pr th n) as (t & -> & Ht);
      try lra; [lia|apply int_overflows_small; lia|].
    simpl. eexists. split; [reflexivity|]. simpl.
    intros obj E. now injection E as <-.
  - intros H. destruct (Qle_bool b a);
      (eexists; split; [reflexivity|]); simpl; [easy|].
    intros obj E. injection E as <-. simpl. repeat split; lra.
  - intros H. destruct (Qle_bool b a);
      (eexists; split; [reflexivity|]); simpl; [easy|].
    intros obj E. injection E as <-. simpl. repeat split; lra.
  - intros H. eexists. split; [reflexivity|]. simpl.
    intros obj E. injection E as <-. simpl.
    repeat constructor; lra.
Qed.

Lemma sliders_give_a_page_witness :
  exists p, select_component (Flange 50 20 5 6) = Ok p /\
            forall obj, generated_obj p = Some obj -> positive_dims obj.
Proof.
  apply (sliders_give_a_page (Flange 50 20 5 6)).
  unfold sliders, within. repeat split; (discriminate || lia).
Defined.

(** X17.  In every tree that the page generates, the bore that is subtracted
    first is strictly narrower than the body it is cut from: the guards of
    the Flange, Nut and Washer branches let no other tree through. *)
Theorem generated_bore_is_narrower_than_body
    (c : component_type) (p : page) (obj : solid) :
  select_component c = Ok p -> generated_obj p = Some obj ->
  forall (body_radius h r : Q) (k : Z) (bore : solid) (rest : list solid),
    base_of obj = Cylinder body_radius h k ->
    subtracted obj = bore :: rest ->
    hole_radius_of bore = Some r ->
    r < body_radius.
Proof.
  assert (ring : forall x y : Q, Qle_bool x y = false -> y < x).
  { intros x y E. apply Qnot_le_lt. intros H.
    apply Qle_bool_iff in H. congruence. }
  intros Hp Hobj R h r k bore rest Hbase Hsub Hr.
  destruct c as [a b c' d|fr pr th n|a b c'|a b c'|a b c' d]; simpl in Hp.
  - injection Hp as <-. simpl in Hobj. injection Hobj as <-. discriminate.
  - destruct (Qle_bool fr pr) eqn:E;
      [injection Hp as <-; discriminate|].
    destruct (create_flange fr pr th n) as [t|] eqn:Ht; [|discriminate].
    injection Hp as <-. simpl in Hobj. injection Hobj as <-.
    destruct (subtracted_flange fr pr th n t Ht) as [Hb Hs].
    rewrite Hb in Hbase. rewrite Hs in Hsub.
    assert (R = fr) by congruence. subst R.
    assert (Hbore : bore = Down 0.1 (Cylinder pr (th + 2 * 0.1) 100))
      by congruence.
    rewrite Hbore in Hr. unfold hole_radius_of in Hr. simpl in Hr.
    assert (r = pr) by congruence. subst r. now apply ring.
  - destruct (Qle_bool b a) eqn:E; injection Hp as <-; [discriminate|].
    simpl in Hobj. injection Hobj as <-. simpl in Hbase, Hsub.
    assert (R = b) by congruence. subst R.
    assert (Hbore : bore = Down 0.1 (Cylinder a (c' + 2 * 0.1) 100))
      by congruence.
    rewrite Hbore in Hr. unfold hole_radius_of in Hr. simpl in Hr.
    assert (r = a) by congruence. subst r. now apply ring.
  - destruct (Qle_bool b a) eqn:E; injection Hp as <-; [discriminate|].
    simpl in Hobj. injection Hobj as <-. simpl in Hbase, Hsub.
    assert (R = b) by congruence. subst R.
    assert (Hbore : bore = Down 0.1 (Cylinder a (c' + 2 * 0.1) 100))
      by congruence.
    rewrite Hbore in Hr. unfold hole_radius_of in Hr. simpl in Hr.
    assert (r = a) by congruence. subst r. now apply ring.
  - injection Hp as <-. simpl in Hobj. injection Hobj as <-. discriminate.
Qed.

Lemma generated_bore_is_narrower_than_body_witness : 5 < 12.
Proof.
  apply (generated_bore_is_narrower_than_body (Washer 5 12 2)
           {| generated_obj := Some (create_washer 5 12 2); st_error := [] |}
           (create_washer 5 12 2) eq_refl eq_refl
           12 2 5 100%Z
           (Down 0.1 (Cylinder 5 (2 + 2 * 0.1) 100)) []);
    reflexivity.
Defined.

(** ** The builders as they run: binary64 *)

Lemma create_flange_binary64 (fr pr th : float) (n : Z) :
  n <> 0%Z -> int_overflows n = false ->
  Binary64.create_flange fr pr th n =
  Ok (fold_left DifferenceOf
        (map (Binary64.flange_hole fr pr th n) (range n))
        (DifferenceOf (Cylinder fr th 100)
           (Down 0.1%float (Cylinder pr (th + 2 * 0.1)%float 100)))).
Proof.
  intros Hn Ho. unfold Binary64.create_flange, Binary64.truediv.
  destruct (Z.eqb_spec n 0) as [->|_]; [easy|]. rewrite Ho. reflexivity.
Qed.

Lemma bolt_holes_binary64 (fr pr th : float) (n : Z) (t : csg float) :
  n <> 0%Z -> int_overflows n = false ->
  Binary64.create_flange fr pr th n = Ok t ->
  base_of t = Cylinder fr th 100 /\
  subtracted t = Down 0.1%float (Cylinder pr (th + 2 * 0.1)%float 100)
                 :: map (Binary64.flange_hole fr pr th n) (range n) /\
  bolt_holes_of t = map (Binary64.flange_hole fr pr th n) (range n).
Proof.
  intros Hn Ho Ht. rewrite create_flange_binary64 in Ht by easy.
  injection Ht as <-. unfold bolt_holes_of.
  now rewrite base_of_fold, subtracted_fold.
Qed.









(** C6, as the code has it.  For every Flange parameter set with a hole
    count from 1 up to the largest that converts to a float, every bolt
    hole of the returned tree sits on the circle whose radius is the
    double (flangeRadius + pipeRadius) / 2.0 and is cut with the radius
    that is the double (flangeRadius - pipeRadius) * 0.15, each operation
    rounded to nearest, with 1 in its place whenever that double is <= 0
    (which rounding makes possible for valid radii: 5e-324 and 0 give 1).
    [create_flange 50 20 5 6] has six bolt holes, on the circle of radius
    exactly 35 and of radius exactly 4.5. *)
Theorem flange_bolt_circle_and_hole_radius_rounded :
  (forall (fr pr th : float) (n : Z),
     (1 <= n)%Z -> int_overflows n = false ->
     exists t,
       Binary64.create_flange fr pr th n = Ok t /\
       length (bolt_holes_of t) = Z.to_nat n /\
       Forall (fun s =>
                 exists angle,
                   Binary64.placement s = Some (((fr + pr) / 2.0)%float, angle)
                   /\ hole_radius_of s
                      = Some (if ((fr - pr) * 0.15 <=? 0)%float
                              then 1%float else ((fr - pr) * 0.15)%float))
              (bolt_holes_of t)) /\
  (exists t,
     Binary64.create_flange 50 20 5 6 = Ok t /\
     length (bolt_holes_of t) = 6%nat /\
     Forall (fun s =>
               exists angle,
                 Binary64.placement s = Some (35%float, angle) /\
                 hole_radius_of s = Some 4.5%float)
            (bolt_holes_of t)) /\
  ((0 <? 5e-324)%float = true /\
   Binary64.flange_hole_radius 5e-324 0 = 1%float).
Proof.
  assert (main : forall (fr pr th : float) (n : Z),
            (1 <= n)%Z -> int_overflows n = false ->
            exists t,
              Binary64.create_flange fr pr th n = Ok t /\
              length (bolt_holes_of t) = Z.to_nat n /\
              Forall (fun s =>
                        exists angle,
                          Binary64.placement s
                          = Some (((fr + pr) / 2.0)%float, angle)
                          /\ hole_radius_of s
                             = Some (Binary64.flange_hole_radius fr pr))
                     (bolt_holes_of t)).
  { intros fr pr th n Hn Ho. assert (Hn0 : n <> 0%Z) by lia.
    eexists. split; [now apply create_flange_binary64|].
    pose proof (create_flange_binary64 fr pr th n Hn0 Ho) as Ht.
    destruct (bolt_holes_binary64 _ _ _ _ _ Hn0 Ho Ht) as (_ & _ & Hh).
    rewrite Hh. split; [apply length_map_range|].
    apply Forall_forall. intros s Hs.
    apply list_elem_of_In, in_map_iff in Hs as (i & <- & _).
    eexists. split; reflexivity. }
  split; [exact main|]. split.
  - destruct (main 50 20 5 6%Z)%float as (t & Ht & Hlen & Hall);
      [lia|reflexivity|].
    exists t. split; [easy|]. split; [easy|]. exact Hall.
  - repeat split; reflexivity.
Qed.

Lemma flange_bolt_circle_and_hole_radius_rounded_witness :
  exists t,
    Binary64.create_flange 50 19 5 6 = Ok t /\
    length (bolt_holes_of t) = Z.to_nat 6 /\
    Forall (fun s =>
              exists angle,
                Binary64.placement s = Some (((50 + 19) / 2.0)%float, angle)
                /\ hole_radius_of s
                   = Some (if ((50 - 19) * 0.15 <=? 0)%float
                           then 1%float else ((50 - 19) * 0.15)%float))
           (bolt_holes_of t).
Proof.
  apply (proj1 flange_bolt_circle_and_hole_radius_rounded 50 19 5 6%Z)%float;
    [lia | reflexivity].
Defined.

(** C6 as stated fails: with flangeRadius 50 and pipeRadius 19 every bolt
    hole has the radius 4.6499999999999995, which is neither
    0.15 * (50 - 19) = 4.65 nor the double nearest to it. *)
Lemma flange_hole_radius_is_rounded :
  exists t q,
    Binary64.create_flange 50 19 5 6 = Ok t /\
    Forall (fun s => hole_radius_of s = Some 4.6499999999999995%float)
           (bolt_holes_of t) /\
    bolt_holes_of t <> [] /\
    Binary64.exact 4.6499999999999995 = Some q /\
    ~ q == 0.15 * (50 - 19) /\
    4.6499999999999995%float <> 4.65%float.
Proof.
  eexists _, _. split; [reflexivity|].
  split; [repeat constructor|]. split; [discriminate|].
  split; [vm_compute; reflexivity|]. split.
  - intros H. vm_compute in H. discriminate H.
  - intros H. apply (f_equal (fun x => PrimFloat.eqb x 4.65)) in H.
    vm_compute in H. discriminate H.
Qed.








(** C10, as the code has it.  [create_flange] divides 360.0 by numHoles
    without a guard.  With numHoles = 0 the call raises
    ZeroDivisionError.  With a numHoles of magnitude 2^1024 - 2^970 or
    more the conversion of the hole count to a float raises OverflowError:
    the count below that bound converts to the largest double, the bound
    itself would round to 2^1024.  With every other numHoles the division
    succeeds and the builder returns a tree. *)
Theorem create_flange_total_iff_count_divides :
  (forall fr pr th : float,
     Binary64.create_flange fr pr th 0 = Raise ZeroDivisionError) /\
  (forall (fr pr th : float) (n : Z),
     (2 ^ 1024 - 2 ^ 970 <= Z.abs n)%Z ->
     Binary64.create_flange fr pr th n = Raise OverflowError) /\
  (forall (fr pr th : float) (n : Z),
     n <> 0%Z -> (Z.abs n < 2 ^ 1024 - 2 ^ 970)%Z ->
     Binary64.truediv 360.0 n = Ok (360.0 / Binary64.float_of_int n)%float /\
     exists t, Binary64.create_flange fr pr th n = Ok t) /\
  Binary64.float_of_int (2 ^ 1024 - 2 ^ 970 - 1) = 1.7976931348623157e308%float /\
  Binary64.float_of_int (2 ^ 1024 - 2 ^ 970) = infinity.
Proof.
  split; [|split; [|split; [|split]]].
  - reflexivity.
  - intros fr pr th n Hn.
    assert (Ho : int_overflows n = true) by now apply Z.leb_le.
    unfold Binary64.create_flange, Binary64.truediv.
    destruct (Z.eqb_spec n 0) as [->|_]; [discriminate Ho|].
    now rewrite Ho.
  - intros fr pr th n Hn Hb.
    assert (Ho : int_overflows n = false) by now apply Z.leb_gt.
    split.
    + unfold Binary64.truediv. destruct (Z.eqb_spec n 0); [easy|].
      now rewrite Ho.
    + eexists. now apply create_flange_binary64.
  - vm_compute. reflexivity.
  - vm_compute. reflexivity.
Qed.

Lemma create_flange_total_iff_count_divides_witness :
  Binary64.create_flange 50 20 5 (2 ^ 1024 - 2 ^ 970) = Raise OverflowError /\
  exists t, Binary64.create_flange 50 20 5 6 = Ok t.
Proof.
  split.
  - apply (proj1 (proj2 create_flange_total_iff_count_divides) 50 20 5)%float.
    vm_compute. discriminate.
  - apply (proj1 (proj2 (proj2 create_flange_total_iff_count_divides))
             50 20 5 6%Z)%float; [discriminate | reflexivity].
Defined.

(** C10 as stated fails: 2^1024 is not 0, and the division does not
    succeed. *)
Lemma create_flange_overflows_on_a_huge_count :
  (2 ^ 1024 <> 0)%Z /\
  Binary64.create_flange 50 20 5 (2 ^ 1024) = Raise OverflowError /\
  Binary64.truediv 360.0 (2 ^ 1024) = Raise OverflowError.
Proof. split; [discriminate|]. split; reflexivity. Qed.

(** X1.  A hole count below zero (and above -(2^1024 - 2^970), so that it
    converts to a float) is not an error: the loop does not run, and
    the flange is the disk with its central bore and no bolt hole. *)
Theorem create_flange_negative_count (fr pr th : float) (n : Z) :
  (n < 0)%Z -> (Z.abs n < 2 ^ 1024 - 2 ^ 970)%Z ->
  Binary64.create_flange fr pr th n
  = Ok (DifferenceOf (Cylinder fr th 100)
          (Down 0.1 (Cylinder pr (th + 2 * 0.1) 100))%float) /\
  (forall t, Binary64.create_flange fr pr th n = Ok t -> bolt_holes_of t = []).
Proof.
  intros Hn Hb.
  assert (Ho : int_overflows n = false) by now apply Z.leb_gt.
  assert (E : Binary64.create_flange fr pr th n
              = Ok (DifferenceOf (Cylinder fr th 100)
                      (Down 0.1 (Cylinder pr (th + 2 * 0.1) 100))%float)).
  { rewrite create_flange_binary64 by (easy || lia).
    now rewrite range_nonpositive by lia. }
  split; [exact E|]. intros t Ht. rewrite E in Ht. now injection Ht as <-.
Qed.

Lemma create_flange_negative_count_witness :
  Binary64.create_flange 50 20 5 (-3)
  = Ok (DifferenceOf (Cylinder 50 5 100)
          (Down 0.1 (Cylinder 20 (5 + 2 * 0.1) 100)))%float.
Proof.
  apply (create_flange_negative_count 50 20 5 (-3)%Z)%float; [lia|reflexivity].
Defined.

(** ** The compiler invoker and the script *)

Section InvokerFacts.

Variable scad_render : solid -> string.
Variable path_exists : string -> gmap string string -> bool.
Variable subprocess_run : list string -> gmap string string -> completed.

Lemma program_file_written_first (scad_code scad_path : string)
    (files : gmap string string) :
  let written := <["temp.scad"%string := scad_code]> files in
  let final := snd (generate_stl_content path_exists subprocess_run
                      scad_code scad_path files) in
  final = written \/
  exists returncode,
    subprocess_run [scad_path; "-o"; "temp.stl"; "temp.scad"]%string written
    = Exited returncode final.
Proof.
  simpl. unfold generate_stl_content.
  destruct (path_exists scad_path _); simpl; [|now left].
  destruct (subprocess_run _ _) as [rc files'|e] eqn:E; [|now left].
  right. exists rc.
  destruct (rc =? 0)%Z; simpl; [|easy].
  now destruct (files' !! "temp.stl"%string).
Qed.

Lemma generate_after_exit (scad_code scad_path : string)
    (files files' : gmap string string) (returncode : Z) :
  path_exists scad_path (<["temp.scad"%string := scad_code]> files) = true ->
  subprocess_run [scad_path; "-o"; "temp.stl"; "temp.scad"]%string
    (<["temp.scad"%string := scad_code]> files)
  = Exited returncode files' ->
  generate_stl_content path_exists subprocess_run scad_code scad_path files
  = if (returncode =? 0)%Z
    then (Ok (files' !! "temp.stl"%string), files')
    else (Raise (CalledProcessError returncode), files').
Proof.
  intros Hex Hrun. unfold generate_stl_content. rewrite Hex, Hrun. simpl.
  destruct (returncode =? 0)%Z; simpl; [|reflexivity].
  now destruct (files' !! "temp.stl"%string).
Qed.

Lemma generate_without_compiler (scad_code scad_path : string)
    (files : gmap string string) :
  path_exists scad_path (<["temp.scad"%string := scad_code]> files) = false ->
  generate_stl_content path_exists subprocess_run scad_code scad_path files
  = (Raise (FileNotFoundError not_found_msg),
     <["temp.scad"%string := scad_code]> files).
Proof. intros H. unfold generate_stl_content. now rewrite H. Qed.

Lemma cached_miss (scad_code scad_path : string)
    (cache : gmap (string * string) (option string))
    (files : gmap string string) :
  cache !! (scad_code, scad_path) = None ->
  cached_generate_stl_content path_exists subprocess_run
    scad_code scad_path cache files
  = match generate_stl_content path_exists subprocess_run
            scad_code scad_path files with
    | (Ok stl_data, files') =>
        (Ok stl_data, <[(scad_code, scad_path) := stl_data]> cache, files')
    | (Raise e, files') => (Raise e, cache, files')
    end.
Proof. intros H. unfold cached_generate_stl_content. now rewrite H. Qed.

(** C3, as the code has it.  A call that [st.cache_data] serves from its
    cache returns the stored result and looks neither for the compiler
    nor at the directory.  On every other call the invoker first writes
    the program to the fixed file temp.scad; then, for every program and
    every compiler location, if the location does not exist the call
    raises FileNotFoundError ("OpenSCAD executable not found at specified
    path.") without starting the compiler, and if it exists but cannot be
    started the call raises the exception of the failed start (an
    OSError); the preview tab reports either as "Preview unavailable:
    ...", and nothing is stored in the cache.  The invoker removes no file on any exit path:
    it leaves the directory as it was after the write of temp.scad, or as
    the compiler process left it. *)
Theorem missing_compiler_raises_on_a_cache_miss :
  (forall (scad_code scad_path : string)
          (cache : gmap (string * string) (option string))
          (files : gmap string string) (stl_data : option string),
     cache !! (scad_code, scad_path) = Some stl_data ->
     cached_generate_stl_content path_exists subprocess_run
       scad_code scad_path cache files
     = (Ok stl_data, cache, files)) /\
  (forall (scad_code scad_path : string)
          (cache : gmap (string * string) (option string))
          (files : gmap string string),
     cache !! (scad_code, scad_path) = None ->
     let written := <["temp.scad"%string := scad_code]> files in
     (path_exists scad_path written = false ->
      cached_generate_stl_content path_exists subprocess_run
        scad_code scad_path cache files
      = (Raise (FileNotFoundError not_found_msg), cache, written) /\
      preview path_exists subprocess_run scad_code scad_path files
      = (st_warning ("Preview unavailable: " ++ not_found_msg ++
                     ". Please check the OpenSCAD path in the sidebar."),
         written)) /\
     (forall e : exn,
        path_exists scad_path written = true ->
        subprocess_run [scad_path; "-o"; "temp.stl"; "temp.scad"]%string
          written
        = NotStarted e ->
        cached_generate_stl_content path_exists subprocess_run
          scad_code scad_path cache files
        = (Raise e, cache, written) /\
        forall msg : string,
          e = OSError msg \/ e = FileNotFoundError msg ->
          preview path_exists subprocess_run scad_code scad_path files
          = (st_warning ("Preview unavailable: " ++ msg ++
                         ". Please check the OpenSCAD path in the sidebar."),
             written)) /\
     written !! "temp.scad"%string = Some scad_code /\
     (let final := snd (cached_generate_stl_content path_exists
                          subprocess_run scad_code scad_path cache files) in
      final = written \/
      exists returncode,
        subprocess_run [scad_path; "-o"; "temp.stl"; "temp.scad"]%string
          written
        = Exited returncode final)).
Proof.
  split.
  - intros code path cache files stl Hhit.
    unfold cached_generate_stl_content. now rewrite Hhit.
  - intros code path cache files Hmiss. cbv zeta.
    split; [|split; [|split]].
    + intros Hno. rewrite (cached_miss _ _ _ _ Hmiss).
      unfold preview. now rewrite (generate_without_compiler _ _ _ Hno).
    + intros e Hex Hrun. rewrite (cached_miss _ _ _ _ Hmiss).
      unfold preview, generate_stl_content. rewrite Hex, Hrun. simpl.
      split; [reflexivity|]. now intros msg [-> | ->].
    + apply lookup_insert_eq.
    + rewrite (cached_miss _ _ _ _ Hmiss).
      pose proof (program_file_written_first code path files) as H.
      cbv zeta in H.
      destruct (generate_stl_content path_exists subprocess_run
                  code path files) as [[r|e] fs]; exact H.
Qed.

(** C4, as the code has it.  For every invocation in which the compiler
    is found, the process ends with exit status 0 and no file temp.stl
    exists afterwards, [generate_stl_content] raises nothing: it returns
    None, and the preview tab shows the warning "STL Generation produced
    no output." *)
Theorem silent_success_returns_None
    (scad_code scad_path : string) (files files' : gmap string string) :
  path_exists scad_path (<["temp.scad"%string := scad_code]> files) = true ->
  subprocess_run [scad_path; "-o"; "temp.stl"; "temp.scad"]%string
    (<["temp.scad"%string := scad_code]> files)
  = Exited 0 files' ->
  files' !! "temp.stl"%string = None ->
  generate_stl_content path_exists subprocess_run scad_code scad_path files
  = (Ok None, files') /\
  preview path_exists subprocess_run scad_code scad_path files
  = (st_warning "STL Generation produced no output.", files').
Proof.
  intros Hex Hrun Hout.
  assert (E : generate_stl_content path_exists subprocess_run
                scad_code scad_path files
              = (Ok None, files')).
  { unfold generate_stl_content. rewrite Hex, Hrun. simpl. now rewrite Hout. }
  split; [exact E|]. unfold preview. now rewrite E.
Qed.

(** X9.  A compiler that ends with a non-zero status makes the invoker raise
    CalledProcessError with that status, also when a file temp.stl is
    there afterwards: the mesh is not read.  The preview tab shows
    "Preview generation failed. OpenSCAD encountered an error." and writes
    nothing. *)
Theorem failed_compiler_raises_CalledProcessError
    (scad_code scad_path : string) (files files' : gmap string string)
    (returncode : Z) :
  path_exists scad_path (<["temp.scad"%string := scad_code]> files) = true ->
  subprocess_run [scad_path; "-o"; "temp.stl"; "temp.scad"]%string
    (<["temp.scad"%string := scad_code]> files)
  = Exited returncode files' ->
  returncode <> 0%Z ->
  generate_stl_content path_exists subprocess_run scad_code scad_path files
  = (Raise (CalledProcessError returncode), files') /\
  preview path_exists subprocess_run scad_code scad_path files
  = (st_warning "Preview generation failed. OpenSCAD encountered an error.",
     files').
Proof.
  intros Hex Hrun Hrc.
  assert (E : generate_stl_content path_exists subprocess_run
                scad_code scad_path files
              = (Raise (CalledProcessError returncode), files')).
  { rewrite (generate_after_exit _ _ _ _ _ Hex Hrun).
    now destruct (Z.eqb_spec returncode 0). }
  split; [exact E|]. unfold preview. now rewrite E.
Qed.

(** X10.  When the compiler is found, ends with status 0 and temp.stl is there
    afterwards, the invoker returns the contents of temp.stl.  A non-empty
    mesh is copied unchanged to preview_cache.stl, which the viewer is
    given; an empty one (zero bytes) is treated like a missing one: the
    warning "STL Generation produced no output." and no preview_cache.stl
    written. *)
Theorem compiled_mesh_reaches_the_viewer
    (scad_code scad_path stl_data : string)
    (files files' : gmap string string) :
  path_exists scad_path (<["temp.scad"%string := scad_code]> files) = true ->
  subprocess_run [scad_path; "-o"; "temp.stl"; "temp.scad"]%string
    (<["temp.scad"%string := scad_code]> files)
  = Exited 0 files' ->
  files' !! "temp.stl"%string = Some stl_data ->
  generate_stl_content path_exists subprocess_run scad_code scad_path files
  = (Ok (Some stl_data), files') /\
  (stl_data <> ""%string ->
   preview path_exists subprocess_run scad_code scad_path files
   = (stl_from_file "preview_cache.stl",
      <["preview_cache.stl"%string := stl_data]> files')) /\
  (stl_data = ""%string ->
   preview path_exists subprocess_run scad_code scad_path files
   = (st_warning "STL Generation produced no output.", files')).
Proof.
  intros Hex Hrun Hout.
  assert (E : generate_stl_content path_exists subprocess_run
                scad_code scad_path files
              = (Ok (Some stl_data), files')).
  { rewrite (generate_after_exit _ _ _ _ _ Hex Hrun). simpl.
    now rewrite Hout. }
  split; [exact E|]. unfold preview. rewrite E. split.
  - intros Hne. destruct (String.eqb_spec stl_data ""); [easy|reflexivity].
  - intros ->. reflexivity.
Qed.

(** X11.  The invoker does not remove an old temp.stl before it starts the
    compiler: when a compiler ends with status 0 and leaves the directory
    as it got it, the mesh of an earlier run is returned as the result of
    this one. *)
Theorem stale_mesh_is_returned
    (scad_code scad_path old_stl : string) (files : gmap string string) :
  files !! "temp.stl"%string = Some old_stl ->
  path_exists scad_path (<["temp.scad"%string := scad_code]> files) = true ->
  subprocess_run [scad_path; "-o"; "temp.stl"; "temp.scad"]%string
    (<["temp.scad"%string := scad_code]> files)
  = Exited 0 (<["temp.scad"%string := scad_code]> files) ->
  generate_stl_content path_exists subprocess_run scad_code scad_path files
  = (Ok (Some old_stl), <["temp.scad"%string := scad_code]> files).
Proof.
  intros Hold Hex Hrun.
  rewrite (generate_after_exit _ _ _ _ _ Hex Hrun). simpl.
  rewrite lookup_insert_ne by discriminate. now rewrite Hold.
Qed.

(** X12.  A value that the decorated invoker returns comes either from
    the cache of [st.cache_data], and then nothing was run and no file
    touched, or from a run in which the compiler was found, was started
    on the directory holding the program in temp.scad and ended with
    status 0; the value is then what temp.stl holds (None when it is
    missing), and it is stored for the two arguments. *)
Theorem returned_value_comes_from_the_cache_or_a_successful_run
    (scad_code scad_path : string)
    (cache cache' : gmap (string * string) (option string))
    (files files' : gmap string string) (r : option string) :
  cached_generate_stl_content path_exists subprocess_run
    scad_code scad_path cache files
  = (Ok r, cache', files') ->
  (cache !! (scad_code, scad_path) = Some r /\
   cache' = cache /\ files' = files) \/
  (cache !! (scad_code, scad_path) = None /\
   path_exists scad_path (<["temp.scad"%string := scad_code]> files) = true /\
   subprocess_run [scad_path; "-o"; "temp.stl"; "temp.scad"]%string
     (<["temp.scad"%string := scad_code]> files)
   = Exited 0 files' /\
   r = files' !! "temp.stl"%string /\
   cache' = <[(scad_code, scad_path) := r]> cache).
Proof.
  unfold cached_generate_stl_content.
  destruct (cache !! (scad_code, scad_path)) as [stl|] eqn:Hc.
  - intros H. injection H as <- <- <-. now left.
  - unfold generate_stl_content.
    destruct (path_exists scad_path _); simpl; [|discriminate].
    destruct (subprocess_run _ _) as [rc fs|e]; [|discriminate].
    destruct (Z.eqb_spec rc 0) as [->|Hrc]; simpl; [|discriminate].
    destruct (fs !! "temp.stl"%string) eqn:E; intros H;
      injection H as <- <- <-; right; now rewrite E.
Qed.


(** X15.  Rejected parameters stop the script before anything is rendered: no
    source text, no download, no preview, no file written and no compiler
    started; only the error text is on the page. *)
Theorem rejected_parameters_touch_nothing
    (c : component_type) (openscad_path : string)
    (files : gmap string string) :
  match c with
  | Flange fr pr _ _ => fr <= pr
  | Nut ir or _ | Washer ir or _ => or <= ir
  | _ => False
  end ->
  exists msg,
    app scad_render path_exists subprocess_run c openscad_path files
    = Ok ({| errors := [msg]; tab1 := None; tab2 := None;
             download_button := None |}, files).
Proof.
  destruct c as [a b c' d|fr pr th n|a b c'|a b c'|a b c' d];
    intros H; try easy; apply Qle_bool_iff in H;
    unfold app; simpl; rewrite H; simpl; eauto.
Qed.

(** X18.  The program file has one fixed name, and a failed call stores
    nothing in the cache: of two calls in a row that the cache does not
    serve and that find no compiler, each raises FileNotFoundError, the
    second overwrites the program of the first, and the directory is left
    as one call with the second program alone leaves it. *)
Theorem repeated_runs_keep_one_program_file
    (first second scad_path : string)
    (cache : gmap (string * string) (option string))
    (files : gmap string string) :
  cache !! (first, scad_path) = None ->
  cache !! (second, scad_path) = None ->
  path_exists scad_path (<["temp.scad"%string := first]> files) = false ->
  path_exists scad_path (<["temp.scad"%string := second]> files) = false ->
  let call1 := cached_generate_stl_content path_exists subprocess_run
                 first scad_path cache files in
  let call2 := cached_generate_stl_content path_exists subprocess_run
                 second scad_path (snd (fst call1)) (snd call1) in
  call1 = (Raise (FileNotFoundError not_found_msg), cache,
           <["temp.scad"%string := first]> files) /\
  call2 = (Raise (FileNotFoundError not_found_msg), cache,
           <["temp.scad"%string := second]> files) /\
  call2 = cached_generate_stl_content path_exists subprocess_run
            second scad_path cache files.
Proof.
  intros Hc1 Hc2 He1 He2. cbv zeta.
  assert (E1 : cached_generate_stl_content path_exists subprocess_run
                 first scad_path cache files
               = (Raise (FileNotFoundError not_found_msg), cache,
                  <["temp.scad"%string := first]> files)).
  { rewrite (cached_miss _ _ _ _ Hc1).
    now rewrite (generate_without_compiler _ _ _ He1). }
  assert (E2 : cached_generate_stl_content path_exists subprocess_run
                 second scad_path cache files
               = (Raise (FileNotFoundError not_found_msg), cache,
                  <["temp.scad"%string := second]> files)).
  { rewrite (cached_miss _ _ _ _ Hc2).
    now rewrite (generate_without_compiler _ _ _ He2). }
  rewrite E1, E2. simpl. split; [reflexivity|].
  assert (E3 : cached_generate_stl_content path_exists subprocess_run
                 second scad_path cache
                 (<["temp.scad"%string := first]> files)
               = (Raise (FileNotFoundError not_found_msg), cache,
                  <["temp.scad"%string := second]> files)).
  { rewrite (cached_miss _ _ _ _ Hc2).
    rewrite generate_without_compiler by now rewrite insert_insert_eq.
    now rewrite insert_insert_eq. }
  now rewrite E3.
Qed.

End InvokerFacts.

Lemma missing_compiler_raises_on_a_cache_miss_witness :
  cached_generate_stl_content listed silent_process
    "cube(1);" "openscad" ∅ ∅
  = (Raise (FileNotFoundError not_found_msg), ∅,
     <["temp.scad"%string := "cube(1);"%string]> ∅).
Proof.
  destruct (proj2 (missing_compiler_raises_on_a_cache_miss
                     listed silent_process)
              "cube(1);" "openscad" ∅ ∅)%string as (H & _).
  - apply lookup_empty.
  - apply H. reflexivity.
Defined.

(** C3 as stated fails twice.  After the invoker has failed for want of a
    compiler, the program file temp.scad is still in the directory.  And
    with a result stored in the cache for the same program and location,
    the call returns that mesh although no compiler is there. *)
Lemma missing_compiler_leaves_program_file :
  let miss := cached_generate_stl_content listed silent_process
                "cube(1);" "openscad" ∅ ∅ in
  let stored : gmap (string * string) (option string) :=
    {[ ("cube(1);", "openscad")%string := Some "solid mesh"%string ]} in
  let hit := cached_generate_stl_content listed silent_process
               "cube(1);" "openscad" stored ∅ in
  fst (fst miss) = Raise (FileNotFoundError not_found_msg) /\
  snd miss !! "temp.scad"%string = Some "cube(1);"%string /\
  listed "openscad" ∅ = false /\
  hit = (Ok (Some "solid mesh"%string), stored, ∅).
Proof.
  cbv zeta. split; [reflexivity|]. split; [apply lookup_insert_eq|].
  split; [reflexivity|].
  unfold cached_generate_stl_content. now rewrite lookup_singleton_eq.
Qed.

Lemma silent_success_returns_None_witness :
  generate_stl_content listed silent_process "cube(1);" "openscad"
    {["openscad"%string := "ELF"%string]}
  = (Ok None,
     <["temp.scad"%string := "cube(1);"%string]>
       {["openscad"%string := "ELF"%string]}).
Proof.
  apply (silent_success_returns_None listed silent_process
           "cube(1);" "openscad" {["openscad"%string := "ELF"%string]}).
  - reflexivity.
  - reflexivity.
  - reflexivity.
Defined.

(** C4 as stated fails: a compiler that exits with status 0 and writes
    nothing makes the invoker return None, an ordinary value and not a
    raised exception. *)
Lemma silent_success_is_not_an_error :
  let files : gmap string string := {["openscad"%string := "ELF"%string]} in
  listed "openscad" (<["temp.scad"%string := "cube(1);"%string]> files)
  = true /\
  silent_process ["openscad"; "-o"; "temp.stl"; "temp.scad"]%string
    (<["temp.scad"%string := "cube(1);"%string]> files)
  = Exited 0 (<["temp.scad"%string := "cube(1);"%string]> files) /\
  (<["temp.scad"%string := "cube(1);"%string]> files) !! "temp.stl"%string
  = None /\
  fst (generate_stl_content listed silent_process "cube(1);" "openscad" files)
  = Ok None /\
  forall e,
    fst (generate_stl_content listed silent_process
           "cube(1);" "openscad" files)
    <> Raise e.
Proof.
  cbv zeta. split; [reflexivity|]. split; [reflexivity|].
  split; [reflexivity|].
  assert (E : fst (generate_stl_content listed silent_process
                     "cube(1);" "openscad"
                     {["openscad"%string := "ELF"%string]}) = Ok None)
    by reflexivity.
  split; [exact E|]. intros e. rewrite E. discriminate.
Qed.

Lemma failed_compiler_raises_CalledProcessError_witness :
  generate_stl_content listed failing_process "cube(1);" "openscad"
    {["openscad"%string := "ELF"%string]}
  = (Raise (CalledProcessError 1),
     <["temp.scad"%string := "cube(1);"%string]>
       {["openscad"%string := "ELF"%string]}).
Proof.
  apply (failed_compiler_raises_CalledProcessError listed failing_process
           "cube(1);" "openscad" {["openscad"%string := "ELF"%string]}).
  - reflexivity.
  - reflexivity.
  - discriminate.
Defined.

Lemma compiled_mesh_reaches_the_viewer_witness :
  generate_stl_content listed working_process "cube(1);" "openscad"
    {["openscad"%string := "ELF"%string]}
  = (Ok (Some "solid mesh"%string),
     <["temp.stl"%string := "solid mesh"%string]>
       (<["temp.scad"%string := "cube(1);"%string]>
          {["openscad"%string := "ELF"%string]})).
Proof.
  apply (compiled_mesh_reaches_the_viewer listed working_process
           "cube(1);" "openscad" "solid mesh"
           {["openscad"%string := "ELF"%string]}).
  - reflexivity.
  - reflexivity.
  - reflexivity.
Defined.

Lemma stale_mesh_is_returned_witness :
  generate_stl_content listed silent_process "cube(2);" "openscad"
    (<["temp.stl"%string := "mesh of cube(1)"%string]>
       {["openscad"%string := "ELF"%string]})
  = (Ok (Some "mesh of cube(1)"%string),
     <["temp.scad"%string := "cube(2);"%string]>
       (<["temp.stl"%string := "mesh of cube(1)"%string]>
          {["openscad"%string := "ELF"%string]})).
Proof.
  apply (stale_mesh_is_returned listed silent_process "cube(2);" "openscad"
           "mesh of cube(1)").
  - reflexivity.
  - reflexivity.
  - reflexivity.
Defined.

Lemma returned_value_comes_from_the_cache_or_a_successful_run_witness :
  let files : gmap string string := {["openscad"%string := "ELF"%string]} in
  let written := <["temp.scad"%string := "cube(1);"%string]> files in
  let files' := <["temp.stl"%string := "solid mesh"%string]> written in
  let cache : gmap (string * string) (option string) := ∅ in
  let cache' :=
    <[("cube(1);", "openscad")%string := Some "solid mesh"%string]> cache in
  (cache !! ("cube(1);", "openscad")%string = Some (Some "solid mesh"%string)
   /\ cache' = cache /\ files' = files) \/
  (cache !! ("cube(1);", "openscad")%string = None /\
   listed "openscad" written = true /\
   working_process ["openscad"; "-o"; "temp.stl"; "temp.scad"]%string written
   = Exited 0 files' /\
   Some "solid mesh"%string = files' !! "temp.stl"%string /\
   cache' = cache').
Proof.
  cbv zeta.
  apply (returned_value_comes_from_the_cache_or_a_successful_run
           listed working_process "cube(1);" "openscad" ∅
           (<[("cube(1);", "openscad")%string := Some "solid mesh"%string]> ∅)
           {["openscad"%string := "ELF"%string]}).
  reflexivity.
Defined.


Lemma rejected_parameters_touch_nothing_witness :
  exists msg,
    app sample_render listed working_process (Nut 10 5 5) "openscad"
      {["openscad"%string := "ELF"%string]}
    = Ok ({| errors := [msg]; tab1 := None; tab2 := None;
             download_button := None |},
          {["openscad"%string := "ELF"%string]}).
Proof.
  apply (rejected_parameters_touch_nothing sample_render listed
           working_process (Nut 10 5 5)).
  discriminate.
Defined.

Lemma repeated_runs_keep_one_program_file_witness :
  cached_generate_stl_content listed silent_process "cube(1);" "openscad" ∅ ∅
  = (Raise (FileNotFoundError not_found_msg), ∅,
     <["temp.scad"%string := "cube(1);"%string]> ∅).
Proof.
  apply (repeated_runs_keep_one_program_file listed silent_process
           "cube(1);" "cube(2);" "openscad" ∅ ∅).
  - apply lookup_empty.
  - apply lookup_empty.
  - reflexivity.
  - reflexivity.
Defined.
